(** * ba._actor: the [Actor] base class

    A shallow embedding of [assets/src/ba_data/python/ba/_actor.py].

    The Python methods are state-and-exception computations over a [World]
    holding the objects the class touches: the actor instances, the
    activities they were created in and the engine nodes they wrap.  Calls
    made through [self] are resolved on the class of the instance, so the
    methods of [Actor] are written against a table of overrides. *)

From stdpp Require Import base option list strings gmap fin_maps.

Set Default Proof Using "Type".

(** ** Host-language values *)

Definition ActorId := positive.
Definition ActivityId := positive.
Definition NodeId := positive.

(** The classes of the objects a [raise] can carry.  [ActivityNotFoundError]
    is [ba._error.ActivityNotFoundError]; the last three are the builtin
    classes that derive from [BaseException] without deriving from
    [Exception]. *)
Inductive PyExc :=
  | ActivityNotFoundError
  | AttributeError (attr : string)
  | OtherException (name : string)
  | SystemExit
  | KeyboardInterrupt
  | GeneratorExit.

(** [isinstance(e, Exception)]: what an [except Exception:] clause matches. *)
Definition isinstance_Exception (e : PyExc) : bool :=
  match e with
  | ActivityNotFoundError | AttributeError _ | OtherException _ => true
  | SystemExit | KeyboardInterrupt | GeneratorExit => false
  end.

(** Message objects: [handlemessage] accepts any object and only tests
    [isinstance(msg, _messages.DieMessage)]. *)
Inductive Msg :=
  | DieMessage
  | OtherMsg (name : string).

Definition isinstance_DieMessage (msg : Msg) : bool :=
  match msg with
  | DieMessage => true
  | OtherMsg _ => false
  end.

(** What [handlemessage] may hand back ([Any]): [None], the
    [_error.UNHANDLED] sentinel, or some other object. *)
Inductive PyValue :=
  | PyNone
  | UNHANDLED
  | PyObject (name : string).

(** [weakref.ref(activity)]: names its referent without owning it. *)
Inductive WeakRef :=
  | weakref_ref (referent : ActivityId).

(** ** Objects *)

(** Instance attributes of an actor.  Each one may be missing from the
    instance: [attr_node = None] is an instance without a ['node']
    attribute, [Some None] is [self.node = None]. *)
Record ActorObj := mkActorObj {
  attr_node : option (option NodeId);
  attr__activity : option WeakRef;
}.

Definition empty_obj : ActorObj :=
  {| attr_node := None; attr__activity := None |}.

(** Modelled from the spec: the Activity class is not part of this file.  An
    activity "owns a registry of weak actor references and an explicit
    retain list for actors kept alive outside normal reference counting";
    [act_expired] is what its [is_expired()] reports. *)
Record Activity := mkActivity {
  act_expired : bool;
  act_weak_actors : list ActorId;
  act_retained : list ActorId;
}.

(** Calls that reach the engine, an activity or the error printer and
    change something there, in the order they are made. *)
Inductive EngineCall :=
  | CallNodeDelete (n : NodeId)
  | CallAddActorWeakRef (a : ActivityId) (actor : ActorId)
  | CallRetainActor (a : ActivityId) (actor : ActorId)
  | CallPrintException (text : string) (actor : ActorId) (e : PyExc)
  | CallPrintError (text : string) (actor : ActorId).

Record World := mkWorld {
  (** the activity objects that are still alive *)
  activities : gmap ActivityId Activity;
  (** the engine nodes that exist *)
  nodes : gset NodeId;
  (** the actor instances *)
  actors : gmap ActorId ActorObj;
  (** the activity of the current context, if any *)
  context_activity : option ActivityId;
  (** the engine-affecting calls made so far *)
  calls : list EngineCall;
}.

Definition set_activities (f : gmap ActivityId Activity → gmap ActivityId Activity)
    (w : World) : World :=
  {| activities := f (activities w); nodes := nodes w; actors := actors w;
     context_activity := context_activity w; calls := calls w |}.

Definition set_nodes (f : gset NodeId → gset NodeId) (w : World) : World :=
  {| activities := activities w; nodes := f (nodes w); actors := actors w;
     context_activity := context_activity w; calls := calls w |}.

Definition set_actors (f : gmap ActorId ActorObj → gmap ActorId ActorObj)
    (w : World) : World :=
  {| activities := activities w; nodes := nodes w; actors := f (actors w);
     context_activity := context_activity w; calls := calls w |}.

Definition log_call (c : EngineCall) (w : World) : World :=
  {| activities := activities w; nodes := nodes w; actors := actors w;
     context_activity := context_activity w; calls := calls w ++ [c] |}.

(** The instance behind a reference; an instance that was never written to
    has no attributes. *)
Definition obj_of (w : World) (self : ActorId) : ActorObj :=
  default empty_obj (actors w !! self).

(** ** Computations *)

(** A call returns a value, raises, or is [Stuck] when it invokes a method
    through a reference that names no object (no Python execution does). *)
Inductive Outcome (A : Type) :=
  | Return (a : A)
  | Raise (e : PyExc)
  | Stuck.
Arguments Return {A} a.
Arguments Raise {A} e.
Arguments Stuck {A}.

Definition M (A : Type) : Type := World → Outcome A * World.

Definition ret {A} (a : A) : M A := λ w, (Return a, w).
Definition raise {A} (e : PyExc) : M A := λ w, (Raise e, w).

Definition bind {A B} (m : M A) (k : A → M B) : M B :=
  λ w, match m w with
       | (Return a, w') => k a w'
       | (Raise e, w') => (Raise e, w')
       | (Stuck, w') => (Stuck, w')
       end.

Notation "x <- m ;; k" := (bind m (λ x, k))
  (at level 100, m at next level, right associativity).
Notation "m ;;; k" := (bind m (λ _, k))
  (at level 100, right associativity).

Definition modify (f : World → World) : M unit := λ w, (Return tt, f w).

(** [try: body except Exception: handler]: the handler runs for a raised
    object that is an instance of [Exception]; anything else goes on
    propagating. *)
Definition try_except_Exception {A} (body : M A) (handler : PyExc → M A) : M A :=
  λ w, match body w with
       | (Raise e, w') =>
           if isinstance_Exception e then handler e w' else (Raise e, w')
       | r => r
       end.

(** ** Collaborators outside this file *)

(** What a weak reference still names: its referent while that object is
    alive, nothing afterwards. *)
Definition weakref_deref (w : World) (r : WeakRef) : option ActivityId :=
  match r with
  | weakref_ref a =>
      match activities w !! a with
      | Some _ => Some a
      | None => None
      end
  end.

(** Calling the weak reference, [r()]. *)
Definition weakref_call (r : WeakRef) : M (option ActivityId) :=
  λ w, (Return (weakref_deref w r), w).

(** Modelled from the spec: [_ba.getactivity()] is an engine builtin.  An
    actor is "created inside an active Activity context"; the call hands
    back that activity and raises [ActivityNotFoundError] where there is
    none. *)
Definition _ba_getactivity : M ActivityId :=
  λ w, match context_activity w with
       | Some a =>
           match activities w !! a with
           | Some _ => (Return a, w)
           | None => (Raise ActivityNotFoundError, w)
           end
       | None => (Raise ActivityNotFoundError, w)
       end.

(** Running [f] on the activity object behind [a]. *)
Definition on_activity {A} (a : ActivityId) (f : Activity → M A) : M A :=
  λ w, match activities w !! a with
       | Some act => f act w
       | None => (Stuck, w)
       end.

(** The activity [act] with one more actor in its weak registry. *)
Definition registered_with (act : Activity) (actor : ActorId) : Activity :=
  {| act_expired := act_expired act;
     act_weak_actors := act_weak_actors act ++ [actor];
     act_retained := act_retained act |}.

(** The activity [act] with one more actor on its retain list. *)
Definition retained_with (act : Activity) (actor : ActorId) : Activity :=
  {| act_expired := act_expired act;
     act_weak_actors := act_weak_actors act;
     act_retained := act_retained act ++ [actor] |}.

(** Modelled from the spec: [Activity.add_actor_weak_ref] puts the actor in
    the activity's "registry of weak actor references". *)
Definition Activity_add_actor_weak_ref (a : ActivityId) (actor : ActorId) : M unit :=
  on_activity a (λ act,
    modify (set_activities <[a := registered_with act actor]>) ;;;
    modify (log_call (CallAddActorWeakRef a actor))).

(** Modelled from the spec: [Activity.retain_actor] puts the actor on the
    activity's "explicit retain list". *)
Definition Activity_retain_actor (a : ActivityId) (actor : ActorId) : M unit :=
  on_activity a (λ act,
    modify (set_activities <[a := retained_with act actor]>) ;;;
    modify (log_call (CallRetainActor a actor))).

(** Modelled from the spec: [Activity.is_expired] is a lifecycle query the
    actor forwards to. *)
Definition Activity_is_expired (a : ActivityId) : M bool :=
  on_activity a (λ act, ret (act_expired act)).

(** Modelled from the spec: the engine's node system is an outside service
    the actor calls into.  [node.delete()] takes the node out of the scene,
    after which [node.exists()] is false (the class docstring: after a
    [DieMessage] the actor's [exists()] returns [False]). *)
Definition Node_delete (n : NodeId) : M unit :=
  modify (set_nodes (λ s, s ∖ {[n]})) ;;;
  modify (log_call (CallNodeDelete n)).

Definition Node_exists (n : NodeId) : M bool :=
  λ w, (Return (bool_decide (n ∈ nodes w)), w).

(** Modelled from the spec: the error-reporting subsystem is an outside
    service.  [_error.print_exception(text, obj)] reports the exception
    being handled and returns ("print-and-continue"); [_error.print_error]
    reports a message. *)
Definition print_exception (text : string) (actor : ActorId) (e : PyExc) : M unit :=
  modify (log_call (CallPrintException text actor e)).

Definition print_error (text : string) (actor : ActorId) : M unit :=
  modify (log_call (CallPrintError text actor)).

(** ** Attribute access *)

(** [self._activity]: a plain attribute read, [AttributeError] when the
    instance has no such attribute. *)
Definition getattr__activity (self : ActorId) : M WeakRef :=
  λ w, match attr__activity (obj_of w self) with
       | Some r => (Return r, w)
       | None => (Raise (AttributeError "_activity"), w)
       end.

(** [getattr(self, 'node', None)]. *)
Definition getattr_node_or_None (self : ActorId) : M (option NodeId) :=
  λ w, (Return (default None (attr_node (obj_of w self))), w).

(** [self.node = v]. *)
Definition setattr_node (self : ActorId) (v : option NodeId) : M unit :=
  modify (λ w, set_actors
    <[self := {| attr_node := Some v;
                 attr__activity := attr__activity (obj_of w self) |}]> w).

(** [self._activity = r]. *)
Definition setattr__activity (self : ActorId) (r : WeakRef) : M unit :=
  modify (λ w, set_actors
    <[self := {| attr_node := attr_node (obj_of w self);
                 attr__activity := Some r |}]> w).

(** ** The class *)

(** What a subclass of [Actor] defines itself, for the methods this file
    calls through [self]; [None] means the method is inherited. *)
Record ActorClass := mkActorClass {
  ov_handlemessage : option (ActorId → Msg → M PyValue);
  ov_is_expired : option (ActorId → M bool);
  ov_exists : option (ActorId → M bool);
  ov_getactivity : option (ActorId → bool → M (option ActivityId));
}.

(** [Actor] itself overrides nothing. *)
Definition Actor : ActorClass :=
  {| ov_handlemessage := None; ov_is_expired := None;
     ov_exists := None; ov_getactivity := None |}.

Definition Actor___init__ (self : ActorId) (node : option NodeId) : M unit :=
  setattr_node self None ;;;
  activity <- _ba_getactivity ;;
  setattr__activity self (weakref_ref activity) ;;;
  Activity_add_actor_weak_ref activity self ;;;
  match node with
  | Some n => setattr_node self (Some n)
  | None => ret tt
  end.

Definition Actor_handlemessage (self : ActorId) (msg : Msg) : M PyValue :=
  if isinstance_DieMessage msg then
    node <- getattr_node_or_None self ;;
    match node with
    | Some n => Node_delete n
    | None => ret tt
    end ;;;
    ret PyNone
  else
    ret UNHANDLED.

Definition Actor_autoretain (self : ActorId) : M ActorId :=
  r <- getattr__activity self ;;
  activity <- weakref_call r ;;
  match activity with
  | None => raise ActivityNotFoundError
  | Some a => Activity_retain_actor a self ;;; ret self
  end.

Definition Actor_on_expire (self : ActorId) : M unit := ret tt.

Definition Actor_exists (self : ActorId) : M bool :=
  node <- getattr_node_or_None self ;;
  match node with
  | Some n => Node_exists n
  | None => ret true
  end.

Definition Actor_is_alive (self : ActorId) : M bool := ret true.

(** The [activity] property. *)
Definition Actor_activity (self : ActorId) : M ActivityId :=
  r <- getattr__activity self ;;
  activity <- weakref_call r ;;
  match activity with
  | None => raise ActivityNotFoundError
  | Some a => ret a
  end.

Definition Actor_getactivity (self : ActorId) (doraise : bool)
    : M (option ActivityId) :=
  r <- getattr__activity self ;;
  activity <- weakref_call r ;;
  match activity, doraise with
  | None, true => raise ActivityNotFoundError
  | _, _ => ret activity
  end.

(** Method lookup on an instance of class [cls]. *)
Definition call_handlemessage (cls : ActorClass) : ActorId → Msg → M PyValue :=
  default Actor_handlemessage (ov_handlemessage cls).

Definition call_exists (cls : ActorClass) : ActorId → M bool :=
  default Actor_exists (ov_exists cls).

Definition call_getactivity (cls : ActorClass)
    : ActorId → bool → M (option ActivityId) :=
  default Actor_getactivity (ov_getactivity cls).

Definition Actor_is_expired (cls : ActorClass) (self : ActorId) : M bool :=
  activity <- call_getactivity cls self false ;;
  match activity with
  | None => ret true
  | Some a => Activity_is_expired a
  end.

Definition call_is_expired (cls : ActorClass) : ActorId → M bool :=
  default (Actor_is_expired cls) (ov_is_expired cls).

Definition Actor___del__ (cls : ActorClass) (self : ActorId) : M unit :=
  try_except_Exception
    (expired <- call_is_expired cls self ;;
     if negb expired then
       call_handlemessage cls self DieMessage ;;; ret tt
     else
       ret tt)
    (λ e, print_exception "exception in ba.Actor.__del__() for" self e).

Definition Actor__handlemessage_sanity_check (cls : ActorClass) (self : ActorId)
    : M unit :=
  expired <- call_is_expired cls self ;;
  if expired then
    print_error "handlemessage called on expired actor: " self
  else
    ret tt.

Definition Actor___bool__ (cls : ActorClass) (self : ActorId) : M bool :=
  call_exists cls self.

(** [__del__] comes down to the [is_expired()] check followed by a
    [DieMessage] sent to the instance's own [handlemessage], under the
    finalizer's [except] clause. *)
Definition del_dispatches_die (cls : ActorClass) (self : ActorId) (w : World)
    : Prop :=
  Actor___del__ cls self w =
    try_except_Exception
      (call_handlemessage cls self DieMessage ;;; ret tt)
      (λ e, print_exception "exception in ba.Actor.__del__() for" self e)
      (snd (call_is_expired cls self w)).

(** ** Reclaiming *)

(** The collector reclaiming activity [a]: the object is gone, and nothing
    else changes. *)
Definition collect_activity (a : ActivityId) (w : World) : World :=
  set_activities (delete a) w.

(** ** Sample worlds *)

Definition sample_activity : Activity :=
  {| act_expired := false; act_weak_actors := [7%positive]; act_retained := [] |}.

(** Activity 1 is current and alive; actor 7 wraps node 5 in it, actor 8
    has no node, actor 9 belongs to an activity that is gone. *)
Definition sample_world : World :=
  {| activities := {[1%positive := sample_activity]};
     nodes := {[5%positive]};
     actors := {[7%positive := {| attr_node := Some (Some 5%positive);
                                  attr__activity := Some (weakref_ref 1%positive) |};
                 8%positive := {| attr_node := Some None;
                                  attr__activity := Some (weakref_ref 1%positive) |};
                 9%positive := {| attr_node := Some (Some 5%positive);
                                  attr__activity := Some (weakref_ref 2%positive) |}]};
     context_activity := Some 1%positive;
     calls := [] |}.

(** A subclass whose [handlemessage] leaves the interpreter. *)
Definition ExitingActor : ActorClass :=
  {| ov_handlemessage := Some (λ _ _, raise SystemExit);
     ov_is_expired := None; ov_exists := None; ov_getactivity := None |}.

(** A subclass whose [handlemessage] fails with an ordinary exception. *)
Definition FailingActor : ActorClass :=
  {| ov_handlemessage := Some (λ _ _, raise (OtherException "RuntimeError"));
     ov_is_expired := None; ov_exists := None; ov_getactivity := None |}.

(** The engine entering another context (or none). *)
Definition set_context (c : option ActivityId) (w : World) : World :=
  {| activities := activities w; nodes := nodes w; actors := actors w;
     context_activity := c; calls := calls w |}.

(** What the inherited [is_expired()] answers for a weak reference [r]:
    expired when the referent is gone, else the referent's own flag. *)
Definition expired_through (w : World) (r : WeakRef) : bool :=
  match weakref_deref w r with
  | None => true
  | Some a =>
      match activities w !! a with
      | Some act => act_expired act
      | None => true
      end
  end.

(** The sample world outside any activity context. *)
Definition sample_world_no_context : World := set_context None sample_world.

(** The sample world after activity 1 has expired (it is still alive). *)
Definition sample_world_expired : World :=
  set_activities
    <[1%positive := {| act_expired := true; act_weak_actors := [7%positive];
                       act_retained := [] |}]> sample_world.

(** Unfolding a computation down to its steps on the world. *)
Ltac run :=
  unfold bind, ret, raise, modify, weakref_call, getattr__activity,
    getattr_node_or_None, on_activity in *; simpl in *.

(** * Properties *)

(** ** The weak reference *)

Lemma weakref_deref_Some w r a :
  weakref_deref w r = Some a → r = weakref_ref a ∧ is_Some (activities w !! a).
Proof.
  destruct r as [b]; simpl. destruct (activities w !! b) eqn:E; [|done].
  intros [= <-]. by rewrite E.
Qed.

Lemma weakref_deref_None w a :
  activities w !! a = None → weakref_deref w (weakref_ref a) = None.
Proof. intros E. simpl. by rewrite E. Qed.

(** Reading the activity of an initialised actor: all three readers are
    one dereference of the stored weak reference. *)
Lemma getactivity_run self r doraise w :
  attr__activity (obj_of w self) = Some r →
  Actor_getactivity self doraise w =
    match weakref_deref w r, doraise with
    | None, true => (Raise ActivityNotFoundError, w)
    | o, _ => (Return o, w)
    end.
Proof.
  intros Hr. unfold Actor_getactivity. run. rewrite Hr.
  by destruct (weakref_deref w r), doraise.
Qed.

Lemma activity_run self r w :
  attr__activity (obj_of w self) = Some r →
  Actor_activity self w =
    match weakref_deref w r with
    | None => (Raise ActivityNotFoundError, w)
    | Some a => (Return a, w)
    end.
Proof.
  intros Hr. unfold Actor_activity. run. rewrite Hr.
  by destruct (weakref_deref w r).
Qed.

Lemma Activity_is_expired_run a act w :
  activities w !! a = Some act →
  Activity_is_expired a w = (Return (act_expired act), w).
Proof. intros E. unfold Activity_is_expired. run. by rewrite E. Qed.

Lemma is_expired_run cls self r w :
  ov_getactivity cls = None →
  attr__activity (obj_of w self) = Some r →
  Actor_is_expired cls self w =
    match weakref_deref w r with
    | None => (Return true, w)
    | Some a => Activity_is_expired a w
    end.
Proof.
  intros Hov Hr. unfold Actor_is_expired, call_getactivity. rewrite Hov. simpl.
  unfold bind at 1. rewrite (getactivity_run _ r) by done.
  by destruct (weakref_deref w r).
Qed.

(** The inherited [is_expired] only reads: whatever it answers, the world
    is the one it started from. *)
Lemma is_expired_reads_only cls self w o w1 :
  ov_getactivity cls = None →
  Actor_is_expired cls self w = (o, w1) → w1 = w.
Proof.
  intros Hov. unfold Actor_is_expired, call_getactivity. rewrite Hov. simpl.
  unfold Actor_getactivity, Activity_is_expired. run.
  destruct (attr__activity (obj_of w self)) as [r|]; [|by intros [= _ <-]].
  destruct (weakref_deref w r) as [a|]; [|by intros [= _ <-]].
  destruct (activities w !! a); by intros [= _ <-].
Qed.

(** C2: for an actor whose class inherits [getactivity], [is_expired()]
    returns [True] whenever the weak reference to the owning activity
    yields [None]; when it yields the activity, [is_expired()] returns
    exactly what that activity's [is_expired()] returns. *)
Theorem Actor_is_expired_spec cls self r w :
  ov_getactivity cls = None →
  attr__activity (obj_of w self) = Some r →
  (weakref_deref w r = None →
     Actor_is_expired cls self w = (Return true, w)) ∧
  (∀ a, weakref_deref w r = Some a →
     Actor_is_expired cls self w = Activity_is_expired a w ∧
     ∃ act, activities w !! a = Some act ∧
            Actor_is_expired cls self w = (Return (act_expired act), w)).
Proof.
  intros Hov Hr. rewrite (is_expired_run cls self r w Hov Hr). split.
  - by intros ->.
  - intros a Ha. rewrite Ha. split; [done|].
    apply weakref_deref_Some in Ha as [_ [act Hact]].
    exists act. split; [done|]. by apply Activity_is_expired_run.
Qed.

Lemma Actor_is_expired_spec_witness :
  Actor_is_expired Actor 9%positive sample_world = (Return true, sample_world) ∧
  Actor_is_expired Actor 7%positive sample_world
    = Activity_is_expired 1%positive sample_world.
Proof.
  split.
  - apply (proj1 (Actor_is_expired_spec Actor 9%positive (weakref_ref 2%positive)
                    sample_world eq_refl eq_refl)).
    vm_compute. reflexivity.
  - apply (proj2 (Actor_is_expired_spec Actor 7%positive (weakref_ref 1%positive)
                    sample_world eq_refl eq_refl) 1%positive).
    vm_compute. reflexivity.
Defined.

(** C10: for an initialised actor, the [activity] property and
    [getactivity(doraise=True)] raise [ActivityNotFoundError] exactly when
    the weak reference yields [None] and otherwise return that activity;
    [getactivity(doraise=False)] never raises and returns what the weak
    reference yields, [None] in that same case. *)
Theorem Actor_getactivity_spec self r w :
  attr__activity (obj_of w self) = Some r →
  (Actor_activity self w = (Raise ActivityNotFoundError, w)
     ↔ weakref_deref w r = None) ∧
  (Actor_getactivity self true w = (Raise ActivityNotFoundError, w)
     ↔ weakref_deref w r = None) ∧
  (∀ e, fst (Actor_activity self w) = Raise e
        ∨ fst (Actor_getactivity self true w) = Raise e →
        e = ActivityNotFoundError ∧ weakref_deref w r = None) ∧
  (∀ a, weakref_deref w r = Some a →
     Actor_activity self w = (Return a, w) ∧
     Actor_getactivity self true w = (Return (Some a), w)) ∧
  Actor_getactivity self false w = (Return (weakref_deref w r), w).
Proof.
  intros Hr.
  rewrite (activity_run self r w Hr), !(getactivity_run self r _ w Hr).
  destruct (weakref_deref w r) as [a|]; simpl.
  - split; [done|]. split; [done|]. split; [by intros e [?|?]|].
    split; [|done]. by intros a' [= ->].
  - split; [done|]. split; [done|]. split; [|done].
    intros e [[= <-]|[= <-]]; done.
Qed.

Lemma Actor_getactivity_spec_witness :
  Actor_getactivity 9%positive true sample_world
    = (Raise ActivityNotFoundError, sample_world) ∧
  Actor_activity 7%positive sample_world = (Return 1%positive, sample_world) ∧
  Actor_getactivity 9%positive false sample_world = (Return None, sample_world).
Proof.
  pose proof (Actor_getactivity_spec 9%positive (weakref_ref 2%positive)
                sample_world eq_refl) as (_ & H9 & _ & _ & H9').
  pose proof (Actor_getactivity_spec 7%positive (weakref_ref 1%positive)
                sample_world eq_refl) as (_ & _ & _ & H7 & _).
  split; [|split].
  - apply H9. vm_compute. reflexivity.
  - apply (H7 1%positive). vm_compute. reflexivity.
  - exact H9'.
Defined.

(** ** Retaining *)

Lemma retain_actor_run a act actor w :
  activities w !! a = Some act →
  Activity_retain_actor a actor w =
    (Return tt,
     log_call (CallRetainActor a actor)
       (set_activities <[a := retained_with act actor]> w)).
Proof. intros E. unfold Activity_retain_actor. run. by rewrite E. Qed.

Lemma autoretain_dead self r w :
  attr__activity (obj_of w self) = Some r →
  weakref_deref w r = None →
  Actor_autoretain self w = (Raise ActivityNotFoundError, w).
Proof. intros Hr Hd. unfold Actor_autoretain. run. by rewrite Hr, Hd. Qed.

(** C5: for an initialised actor, [autoretain()] raises
    [ActivityNotFoundError] if and only if the weak reference yields [None]
    (and raises nothing else); otherwise it calls [retain_actor] once,
    which appends the actor to the retain list of that activity, and
    returns the actor it was called on. *)
Theorem Actor_autoretain_spec self r w :
  attr__activity (obj_of w self) = Some r →
  (fst (Actor_autoretain self w) = Raise ActivityNotFoundError
     ↔ weakref_deref w r = None) ∧
  (∀ e, fst (Actor_autoretain self w) = Raise e → e = ActivityNotFoundError) ∧
  (weakref_deref w r = None →
     Actor_autoretain self w = (Raise ActivityNotFoundError, w)) ∧
  (∀ a, weakref_deref w r = Some a →
     ∃ act w',
       activities w !! a = Some act ∧
       Actor_autoretain self w = (Return self, w') ∧
       w' = snd (Activity_retain_actor a self w) ∧
       activities w' !! a = Some (retained_with act self) ∧
       calls w' = calls w ++ [CallRetainActor a self]).
Proof.
  intros Hr. unfold Actor_autoretain. run. rewrite Hr.
  destruct (weakref_deref w r) as [a|] eqn:Ha.
  - apply weakref_deref_Some in Ha as [-> [act Hact]].
    unfold bind. rewrite (retain_actor_run a act self w Hact). simpl.
    split; [done|]. split; [done|]. split; [done|].
    intros a' [= <-]. eexists act, _. split; [done|]. split; [reflexivity|].
    split; [by rewrite (retain_actor_run a act self w Hact)|].
    split; [|done]. simpl. apply lookup_insert_eq.
  - split; [done|]. split; [by intros e [= <-]|]. split; [done|]. done.
Qed.

Lemma Actor_autoretain_spec_witness :
  Actor_autoretain 9%positive sample_world
    = (Raise ActivityNotFoundError, sample_world) ∧
  ∃ act w', activities sample_world !! 1%positive = Some act ∧
    Actor_autoretain 8%positive sample_world = (Return 8%positive, w') ∧
    w' = snd (Activity_retain_actor 1%positive 8%positive sample_world) ∧
    activities w' !! 1%positive = Some (retained_with act 8%positive) ∧
    calls w' = calls sample_world ++ [CallRetainActor 1%positive 8%positive].
Proof.
  split.
  - apply (Actor_autoretain_spec 9%positive (weakref_ref 2%positive)
             sample_world eq_refl).
    vm_compute. reflexivity.
  - apply (Actor_autoretain_spec 8%positive (weakref_ref 1%positive)
             sample_world eq_refl).
    vm_compute. reflexivity.
Defined.

(** ** Construction *)

(** The world [Actor.__init__] leaves behind when it runs in the context of
    the live activity [a]. *)
Lemma init_run self node a act w :
  context_activity w = Some a →
  activities w !! a = Some act →
  Actor___init__ self node w =
    (Return tt,
     {| activities := <[a := registered_with act self]> (activities w);
        nodes := nodes w;
        actors := <[self := {| attr_node := Some node;
                               attr__activity := Some (weakref_ref a) |}]>
                    (actors w);
        context_activity := context_activity w;
        calls := calls w ++ [CallAddActorWeakRef a self] |}).
Proof.
  intros Hc Ha. unfold Actor___init__, setattr_node, setattr__activity,
    _ba_getactivity, Activity_add_actor_weak_ref. run.
  rewrite Hc, Ha. simpl. rewrite Ha. simpl.
  unfold set_actors, set_activities, log_call, registered_with, obj_of; simpl.
  rewrite !lookup_insert_eq. simpl.
  destruct node as [n|]; simpl; f_equal; f_equal;
    rewrite ?lookup_insert_eq; simpl; by rewrite ?insert_insert_eq.
Qed.

(** C6: constructing an actor in the context of a live activity obtains
    that activity from the engine, registers the actor in its weak registry
    by one call of [add_actor_weak_ref] (one more entry, one call), and
    leaves the given node, or [None] when none was given, in the ['node']
    attribute. *)
Theorem Actor_init_spec self node a act w :
  context_activity w = Some a →
  activities w !! a = Some act →
  fst (_ba_getactivity w) = Return a ∧
  ∃ w', Actor___init__ self node w = (Return tt, w') ∧
    activities w' !! a = Some (registered_with act self) ∧
    count_occ Pos.eq_dec (act_weak_actors (registered_with act self)) self
      = S (count_occ Pos.eq_dec (act_weak_actors act) self) ∧
    calls w' = calls w ++ [CallAddActorWeakRef a self] ∧
    attr_node (obj_of w' self) = Some node ∧
    nodes w' = nodes w.
Proof.
  intros Hc Ha. split.
  - unfold _ba_getactivity. by rewrite Hc, Ha.
  - eexists. split; [by apply (init_run self node a act)|]. simpl.
    split; [apply lookup_insert_eq|]. split.
    + rewrite count_occ_app. simpl. destruct (Pos.eq_dec self self); [|done].
      apply Nat.add_1_r.
    + split; [done|]. split; [|done].
      unfold obj_of. simpl. by rewrite lookup_insert_eq.
Qed.

Lemma Actor_init_spec_witness :
  fst (_ba_getactivity sample_world) = Return 1%positive ∧
  ∃ w', Actor___init__ 10%positive (Some 5%positive) sample_world = (Return tt, w') ∧
    activities w' !! 1%positive = Some (registered_with sample_activity 10%positive) ∧
    count_occ Pos.eq_dec
      (act_weak_actors (registered_with sample_activity 10%positive)) 10%positive
      = S (count_occ Pos.eq_dec (act_weak_actors sample_activity) 10%positive) ∧
    calls w' = calls sample_world ++ [CallAddActorWeakRef 1%positive 10%positive] ∧
    attr_node (obj_of w' 10%positive) = Some (Some 5%positive) ∧
    nodes w' = nodes sample_world.
Proof.
  apply (Actor_init_spec 10%positive (Some 5%positive) 1%positive
           sample_activity sample_world).
  - reflexivity.
  - vm_compute. reflexivity.
Defined.

(** ** The weak reference to the activity *)

Lemma collect_activity_lookup a w :
  activities (collect_activity a w) !! a = None.
Proof. simpl. apply lookup_delete_eq. Qed.

Lemma obj_of_collect a w self :
  obj_of (collect_activity a w) self = obj_of w self.
Proof. done. Qed.

Lemma autoretain_alive self a act w :
  attr__activity (obj_of w self) = Some (weakref_ref a) →
  activities w !! a = Some act →
  Actor_autoretain self w =
    (Return self,
     log_call (CallRetainActor a self)
       (set_activities <[a := retained_with act self]> w)).
Proof.
  intros Hr Ha. unfold Actor_autoretain. run. rewrite Hr. simpl.
  rewrite Ha. unfold bind. by rewrite (retain_actor_run a act self w Ha).
Qed.

(** C7: the reference an actor keeps to its creating activity is weak.
    [__init__] leaves an instance whose attributes are the node and
    [weakref.ref(activity)], nothing else.  Every later access goes through
    that weak reference: in any later world where the attribute is still
    there, [activity], [getactivity], [is_expired] and [autoretain] reach
    the activity exactly when it is alive at that moment, and see a dead
    reference otherwise.  Holding the actor does not keep the activity:
    reclaiming it leaves the instance as it was, and the same readers, which
    returned the activity before, then report it gone. *)
Theorem Actor_activity_is_weak self node a act w :
  context_activity w = Some a →
  activities w !! a = Some act →
  let w' := snd (Actor___init__ self node w) in
  let gone := collect_activity a w' in
  obj_of w' self = {| attr_node := Some node;
                      attr__activity := Some (weakref_ref a) |} ∧
  (∀ v, attr__activity (obj_of v self) = Some (weakref_ref a) →
     (∀ act', activities v !! a = Some act' →
        Actor_activity self v = (Return a, v) ∧
        (∀ doraise, Actor_getactivity self doraise v = (Return (Some a), v)) ∧
        Actor_is_expired Actor self v = (Return (act_expired act'), v) ∧
        Actor_autoretain self v
          = (Return self, snd (Activity_retain_actor a self v))) ∧
     (activities v !! a = None →
        Actor_activity self v = (Raise ActivityNotFoundError, v) ∧
        Actor_getactivity self true v = (Raise ActivityNotFoundError, v) ∧
        Actor_getactivity self false v = (Return None, v) ∧
        Actor_is_expired Actor self v = (Return true, v) ∧
        Actor_autoretain self v = (Raise ActivityNotFoundError, v))) ∧
  Actor_activity self w' = (Return a, w') ∧
  Actor_getactivity self false w' = (Return (Some a), w') ∧
  Actor_is_expired Actor self w' = (Return (act_expired act), w') ∧
  obj_of gone self = obj_of w' self ∧
  Actor_activity self gone = (Raise ActivityNotFoundError, gone) ∧
  Actor_getactivity self false gone = (Return None, gone) ∧
  Actor_is_expired Actor self gone = (Return true, gone).
Proof.
  intros Hc Ha w' gone.
  assert (Hobj : obj_of w' self = {| attr_node := Some node;
                                     attr__activity := Some (weakref_ref a) |}).
  { subst w'. rewrite (init_run self node a act w Hc Ha).
    unfold obj_of. simpl. by rewrite lookup_insert_eq. }
  assert (Hreaders : ∀ v, attr__activity (obj_of v self) = Some (weakref_ref a) →
     (∀ act', activities v !! a = Some act' →
        Actor_activity self v = (Return a, v) ∧
        (∀ doraise, Actor_getactivity self doraise v = (Return (Some a), v)) ∧
        Actor_is_expired Actor self v = (Return (act_expired act'), v) ∧
        Actor_autoretain self v
          = (Return self, snd (Activity_retain_actor a self v))) ∧
     (activities v !! a = None →
        Actor_activity self v = (Raise ActivityNotFoundError, v) ∧
        Actor_getactivity self true v = (Raise ActivityNotFoundError, v) ∧
        Actor_getactivity self false v = (Return None, v) ∧
        Actor_is_expired Actor self v = (Return true, v) ∧
        Actor_autoretain self v = (Raise ActivityNotFoundError, v))).
  { intros v Hr. split.
    - intros act' Hv.
      assert (Hd : weakref_deref v (weakref_ref a) = Some a)
        by (unfold weakref_deref; by rewrite Hv).
      rewrite (activity_run self _ v Hr),
        (is_expired_run Actor self _ v eq_refl Hr), Hd,
        (Activity_is_expired_run a act' v Hv),
        (autoretain_alive self a act' v Hr Hv),
        (retain_actor_run a act' self v Hv).
      split; [done|]. split; [|done].
      intros d. rewrite (getactivity_run self _ d v Hr), Hd. by destruct d.
    - intros Hv. pose proof (weakref_deref_None v a Hv) as Hd.
      rewrite (activity_run self _ v Hr), !(getactivity_run self _ _ v Hr),
        (is_expired_run Actor self _ v eq_refl Hr),
        (autoretain_dead self _ v Hr Hd), Hd.
      done. }
  assert (Hr' : attr__activity (obj_of w' self) = Some (weakref_ref a))
    by (by rewrite Hobj).
  assert (Ha' : activities w' !! a = Some (registered_with act self)).
  { subst w'. rewrite (init_run self node a act w Hc Ha). simpl.
    apply lookup_insert_eq. }
  assert (Hrg : attr__activity (obj_of gone self) = Some (weakref_ref a)).
  { subst gone. by rewrite obj_of_collect. }
  destruct (Hreaders w' Hr') as [Hlive _].
  destruct (Hlive _ Ha') as (L1 & L2 & L3 & _).
  destruct (Hreaders gone Hrg) as [_ Hdead].
  destruct (Hdead (collect_activity_lookup a w')) as (D1 & _ & D3 & D4 & _).
  split; [done|]. split; [done|]. split; [done|]. split; [exact (L2 false)|].
  split; [done|]. split; [by subst gone; rewrite obj_of_collect|].
  split; [done|]. split; done.
Qed.

Lemma Actor_activity_is_weak_witness :
  let w' := snd (Actor___init__ 10%positive None sample_world) in
  let gone := collect_activity 1%positive w' in
  obj_of w' 10%positive = {| attr_node := Some None;
                             attr__activity := Some (weakref_ref 1%positive) |} ∧
  Actor_activity 10%positive w' = (Return 1%positive, w') ∧
  Actor_activity 10%positive gone = (Raise ActivityNotFoundError, gone) ∧
  Actor_getactivity 10%positive false gone = (Return None, gone) ∧
  Actor_is_expired Actor 10%positive gone = (Return true, gone).
Proof.
  pose proof (Actor_activity_is_weak 10%positive None 1%positive
                sample_activity sample_world eq_refl eq_refl)
    as (H1 & _ & H2 & _ & _ & _ & H3 & H4 & H5).
  exact (conj H1 (conj H2 (conj H3 (conj H4 H5)))).
Defined.

(** ** Message handling and existence *)

Lemma app_singleton_ne {A} (l : list A) (x : A) : l ++ [x] ≠ l.
Proof.
  intros H. apply (f_equal length) in H. rewrite length_app in H.
  simpl in H. lia.
Qed.

Lemma Node_delete_run n w :
  Node_delete n w =
    (Return tt, log_call (CallNodeDelete n) (set_nodes (λ s, s ∖ {[n]}) w)).
Proof. done. Qed.

(** C8: the default [handlemessage(msg)].  For a [DieMessage] and a
    non-[None] ['node'] attribute it calls [node.delete()] once and returns
    [None]; for a [DieMessage] without a node it returns [None] and the
    world is untouched; for any other message it returns [UNHANDLED] and
    the world is untouched.  So [node.delete()] is called exactly when the
    message is a [DieMessage] and the node is not [None]. *)
Theorem Actor_handlemessage_spec self msg w :
  let node := default None (attr_node (obj_of w self)) in
  let r := Actor_handlemessage self msg w in
  match msg, node with
  | DieMessage, Some n =>
      r = (Return PyNone, snd (Node_delete n w)) ∧
      calls (snd r) = calls w ++ [CallNodeDelete n] ∧
      nodes (snd r) = nodes w ∖ {[n]} ∧
      activities (snd r) = activities w ∧
      actors (snd r) = actors w
  | DieMessage, None => r = (Return PyNone, w)
  | OtherMsg _, _ => r = (Return UNHANDLED, w)
  end ∧
  ((∃ n, calls (snd r) = calls w ++ [CallNodeDelete n])
     ↔ isinstance_DieMessage msg = true ∧ is_Some node).
Proof.
  intros node r. subst r node. unfold Actor_handlemessage. run.
  destruct msg as [|name]; simpl.
  - destruct (default None (attr_node (obj_of w self))) as [n|]; simpl.
    + split; [done|]. split; [intros _; split; [done|by exists n]|by exists n].
    + split; [done|]. split.
      * intros [n Hn]. symmetry in Hn. by apply app_singleton_ne in Hn.
      * by intros [_ [n [=]]].
  - split; [done|]. split.
    + intros [n Hn]. symmetry in Hn. by apply app_singleton_ne in Hn.
    + by intros [[=] _].
Qed.

(** C9: [bool(actor)] is [actor.exists()], resolved on the class of the
    instance; the default [exists()] is [node.exists()] when the ['node']
    attribute is not [None] and [True] otherwise, so a base [Actor] without
    a node is truthy. *)
Theorem Actor_bool_exists_spec cls self w :
  Actor___bool__ cls self w = call_exists cls self w ∧
  Actor___bool__ Actor self w = Actor_exists self w ∧
  match default None (attr_node (obj_of w self)) with
  | Some n =>
      Actor_exists self w = Node_exists n w ∧
      Actor_exists self w = (Return (bool_decide (n ∈ nodes w)), w)
  | None =>
      Actor_exists self w = (Return true, w) ∧
      Actor___bool__ Actor self w = (Return true, w)
  end.
Proof.
  split; [done|]. split; [done|].
  unfold Actor___bool__, call_exists, Actor_exists. run.
  by destruct (default None (attr_node (obj_of w self))).
Qed.

(** ** The finalizer *)

(** Past a check that answers [False], the finalizer is the guarded send. *)
Lemma del_run_live cls self w w1 :
  call_is_expired cls self w = (Return false, w1) →
  Actor___del__ cls self w =
    try_except_Exception
      (call_handlemessage cls self DieMessage ;;; ret tt)
      (λ e, print_exception "exception in ba.Actor.__del__() for" self e) w1.
Proof.
  intros He. unfold Actor___del__, try_except_Exception.
  unfold bind at 1. by rewrite He.
Qed.

(** C1, as stated, fails: actor 9 of the sample world belongs to an
    activity that is gone, so it is expired; its finalizer returns with the
    world untouched, whereas sending it a [DieMessage] would have deleted
    node 5. *)
Lemma del_dispatch_counterexample :
  Actor___del__ Actor 9%positive sample_world = (Return tt, sample_world) ∧
  calls (snd (call_handlemessage Actor 9%positive DieMessage sample_world))
    = [CallNodeDelete 5%positive] ∧
  ¬ del_dispatches_die Actor 9%positive sample_world.
Proof.
  split; [by vm_compute|]. split; [by vm_compute|].
  unfold del_dispatches_die. intros H.
  apply (f_equal (λ r, calls (snd r))) in H. vm_compute in H. discriminate H.
Qed.

(** C1, amended: when [is_expired()] answers [False] in the finalizer, a
    [DieMessage] is sent to the instance's own [handlemessage], once; if
    that handler returns, the finalizer returns in the world the handler
    left. *)
Theorem del_dispatches_die_unless_expired cls self w w1 :
  call_is_expired cls self w = (Return false, w1) →
  del_dispatches_die cls self w ∧
  ∀ v w2, call_handlemessage cls self DieMessage w1 = (Return v, w2) →
          Actor___del__ cls self w = (Return tt, w2).
Proof.
  intros He. split.
  - unfold del_dispatches_die. rewrite He. by apply del_run_live.
  - intros v w2 Hh. rewrite (del_run_live cls self w w1 He).
    unfold try_except_Exception, bind, ret. by rewrite Hh.
Qed.

Lemma del_dispatches_die_unless_expired_witness :
  del_dispatches_die Actor 7%positive sample_world ∧
  ∀ v w2, call_handlemessage Actor 7%positive DieMessage sample_world = (Return v, w2) →
          Actor___del__ Actor 7%positive sample_world = (Return tt, w2).
Proof.
  apply (del_dispatches_die_unless_expired Actor 7%positive sample_world sample_world).
  vm_compute. reflexivity.
Defined.

(** C3: a finalizer that finds the actor expired does nothing more.
    Whatever [handlemessage] the class has, [__del__] returns in the world
    the [is_expired()] check left, with no call added; and when the class
    inherits [is_expired] and [getactivity] that is the world the finalizer
    started in, so no [DieMessage] is sent and [node.delete()] is not
    reached. *)
Theorem del_expired_does_nothing cls self w w1 :
  call_is_expired cls self w = (Return true, w1) →
  Actor___del__ cls self w = (Return tt, w1) ∧
  calls (snd (Actor___del__ cls self w)) = calls w1 ∧
  nodes (snd (Actor___del__ cls self w)) = nodes w1 ∧
  (ov_is_expired cls = None → ov_getactivity cls = None →
     Actor___del__ cls self w = (Return tt, w)).
Proof.
  intros He.
  assert (Hd : Actor___del__ cls self w = (Return tt, w1)).
  { unfold Actor___del__, try_except_Exception, bind. by rewrite He. }
  rewrite Hd. simpl. repeat (split; [done|]).
  intros Hi Hg. f_equal. unfold call_is_expired in He. rewrite Hi in He.
  exact (is_expired_reads_only cls self w _ w1 Hg He).
Qed.

Lemma del_expired_does_nothing_witness :
  Actor___del__ FailingActor 9%positive sample_world = (Return tt, sample_world) ∧
  calls (snd (Actor___del__ FailingActor 9%positive sample_world)) = [] ∧
  nodes (snd (Actor___del__ FailingActor 9%positive sample_world)) = {[5%positive]}.
Proof.
  pose proof (del_expired_does_nothing FailingActor 9%positive sample_world
                sample_world eq_refl) as (H1 & H2 & H3 & _).
  exact (conj H1 (conj H2 H3)).
Defined.

(** C4, as stated, fails: [except Exception] does not match [SystemExit].
    The finalizer of a live actor whose [handlemessage] raises it lets the
    exception out and prints nothing. *)
Lemma del_system_exit_counterexample :
  call_is_expired ExitingActor 7%positive sample_world
    = (Return false, sample_world) ∧
  call_handlemessage ExitingActor 7%positive DieMessage sample_world
    = (Raise SystemExit, sample_world) ∧
  Actor___del__ ExitingActor 7%positive sample_world
    = (Raise SystemExit, sample_world).
Proof. split; [by vm_compute|]. split; by vm_compute. Qed.

(** C4, amended: an exception that is an instance of [Exception], raised
    while the finalizer sends the [DieMessage], is caught and handed to
    [print_exception]; the finalizer then returns, in the world the handler
    left plus that one report. *)
Theorem del_prints_exception cls self w w1 e w2 :
  call_is_expired cls self w = (Return false, w1) →
  call_handlemessage cls self DieMessage w1 = (Raise e, w2) →
  isinstance_Exception e = true →
  Actor___del__ cls self w =
    (Return tt,
     log_call
       (CallPrintException "exception in ba.Actor.__del__() for" self e) w2).
Proof.
  intros He Hh Hi. rewrite (del_run_live cls self w w1 He).
  unfold try_except_Exception, bind. by rewrite Hh, Hi.
Qed.

Lemma del_prints_exception_witness :
  Actor___del__ FailingActor 7%positive sample_world =
    (Return tt,
     log_call
       (CallPrintException "exception in ba.Actor.__del__() for" 7%positive
          (OtherException "RuntimeError")) sample_world).
Proof.
  apply (del_prints_exception FailingActor 7%positive sample_world sample_world
           (OtherException "RuntimeError") sample_world).
  - vm_compute. reflexivity.
  - reflexivity.
  - reflexivity.
Defined.

(** The finalizer of the plain, live actor 7 deletes its node and nothing
    else; the one of actor 8, which has no node, changes nothing. *)
Example del_live_actor_deletes_node :
  fst (Actor___del__ Actor 7%positive sample_world) = Return tt ∧
  calls (snd (Actor___del__ Actor 7%positive sample_world))
    = [CallNodeDelete 5%positive] ∧
  nodes (snd (Actor___del__ Actor 7%positive sample_world)) = ∅.
Proof. by vm_compute. Qed.

Example del_live_actor_without_node :
  Actor___del__ Actor 8%positive sample_world = (Return tt, sample_world).
Proof. by vm_compute. Qed.

(** An actor built and initialised in the sample world is alive, present
    and not expired. *)
Example fresh_actor_state :
  let w := snd (Actor___init__ 10%positive None sample_world) in
  fst (Actor_is_expired Actor 10%positive w) = Return false ∧
  fst (Actor___bool__ Actor 10%positive w) = Return true ∧
  fst (Actor_getactivity 10%positive true w) = Return (Some 1%positive).
Proof. by vm_compute. Qed.

(** * Further properties of the class *)

(** ** Instances that were never initialised *)

(** X1: on an instance without the [_activity] attribute the readers of
    the activity do not fall back to [None]: the [activity] property,
    [getactivity] with either flag, [autoretain] and the inherited
    [is_expired] and sanity check all raise [AttributeError], and nothing
    is changed. *)
Theorem uninitialised_actor_raises cls self w :
  attr__activity (obj_of w self) = None →
  ov_getactivity cls = None →
  Actor_activity self w = (Raise (AttributeError "_activity"), w) ∧
  (∀ doraise,
     Actor_getactivity self doraise w = (Raise (AttributeError "_activity"), w)) ∧
  Actor_autoretain self w = (Raise (AttributeError "_activity"), w) ∧
  Actor_is_expired cls self w = (Raise (AttributeError "_activity"), w) ∧
  (ov_is_expired cls = None →
     Actor__handlemessage_sanity_check cls self w
       = (Raise (AttributeError "_activity"), w)).
Proof.
  intros Hn Hg.
  assert (Hga : ∀ d, Actor_getactivity self d w
                     = (Raise (AttributeError "_activity"), w)).
  { intros d. unfold Actor_getactivity. run. by rewrite Hn. }
  assert (Hie : Actor_is_expired cls self w
                = (Raise (AttributeError "_activity"), w)).
  { unfold Actor_is_expired, call_getactivity. rewrite Hg. simpl.
    unfold bind. by rewrite Hga. }
  split; [unfold Actor_activity; run; by rewrite Hn|].
  split; [done|].
  split; [unfold Actor_autoretain; run; by rewrite Hn|].
  split; [done|].
  intros Hi. unfold Actor__handlemessage_sanity_check, call_is_expired.
  rewrite Hi. simpl. unfold bind. by rewrite Hie.
Qed.

Lemma uninitialised_actor_raises_witness :
  Actor_activity 11%positive sample_world
    = (Raise (AttributeError "_activity"), sample_world) ∧
  Actor_getactivity 11%positive false sample_world
    = (Raise (AttributeError "_activity"), sample_world) ∧
  Actor_autoretain 11%positive sample_world
    = (Raise (AttributeError "_activity"), sample_world).
Proof.
  pose proof (uninitialised_actor_raises Actor 11%positive sample_world
                eq_refl eq_refl) as (H1 & H2 & H3 & _).
  exact (conj H1 (conj (H2 false) H3)).
Defined.

(** ** Construction outside an activity *)

Lemma _ba_getactivity_reads_only w o w1 :
  _ba_getactivity w = (o, w1) → w1 = w.
Proof.
  unfold _ba_getactivity. destruct (context_activity w) as [a|];
    [destruct (activities w !! a)|]; by intros [= _ <-].
Qed.

Lemma _ba_getactivity_outcome w :
  fst (_ba_getactivity w) =
    match context_activity w with
    | Some a =>
        match activities w !! a with
        | Some _ => Return a
        | None => Raise ActivityNotFoundError
        end
    | None => Raise ActivityNotFoundError
    end.
Proof.
  unfold _ba_getactivity. destruct (context_activity w) as [a|]; [|done].
  by destruct (activities w !! a).
Qed.

(** X2: when [_ba.getactivity()] raises, [__init__] lets that exception
    out.  By then the ['node'] attribute has been set to [None] and nothing
    else has happened: the node passed in is not stored, no [_activity]
    attribute is written, no activity is touched and no call is made. *)
Theorem init_fails_without_activity self node e w :
  fst (_ba_getactivity w) = Raise e →
  let r := Actor___init__ self node w in
  fst r = Raise e ∧
  attr_node (obj_of (snd r) self) = Some None ∧
  attr__activity (obj_of (snd r) self) = attr__activity (obj_of w self) ∧
  activities (snd r) = activities w ∧
  nodes (snd r) = nodes w ∧
  calls (snd r) = calls w ∧
  (∀ other, other ≠ self → actors (snd r) !! other = actors w !! other).
Proof.
  intros He r. subst r. unfold Actor___init__, setattr_node. run.
  set (w0 := set_actors _ w).
  assert (H0 : fst (_ba_getactivity w0) = Raise e).
  { by rewrite _ba_getactivity_outcome in *. }
  destruct (_ba_getactivity w0) as [o w1] eqn:E. simpl in H0. subst o.
  apply _ba_getactivity_reads_only in E as ->. simpl.
  unfold obj_of. simpl. rewrite lookup_insert_eq. simpl.
  repeat (split; [done|]). intros other Hne. by rewrite lookup_insert_ne.
Qed.

Lemma init_fails_without_activity_witness :
  let r := Actor___init__ 10%positive (Some 5%positive) sample_world_no_context in
  fst r = Raise ActivityNotFoundError ∧
  attr_node (obj_of (snd r) 10%positive) = Some None ∧
  calls (snd r) = [].
Proof.
  pose proof (init_fails_without_activity 10%positive (Some 5%positive)
                ActivityNotFoundError sample_world_no_context eq_refl)
    as (H1 & H2 & _ & _ & _ & H3 & _).
  exact (conj H1 (conj H2 H3)).
Defined.

(** ** More on the finalizer *)

Lemma del_run_check_raises cls self w e w1 :
  call_is_expired cls self w = (Raise e, w1) →
  Actor___del__ cls self w =
    if isinstance_Exception e then
      print_exception "exception in ba.Actor.__del__() for" self e w1
    else (Raise e, w1).
Proof.
  intros He. unfold Actor___del__, try_except_Exception.
  unfold bind at 1. by rewrite He.
Qed.

(** X3: the [try] of the finalizer also covers the [is_expired()] check.
    An [Exception] raised by the check is printed and swallowed, and no
    [DieMessage] is sent, whatever [handlemessage] the class has. *)
Theorem del_prints_check_exception cls self w e w1 :
  call_is_expired cls self w = (Raise e, w1) →
  isinstance_Exception e = true →
  Actor___del__ cls self w =
    (Return tt,
     log_call
       (CallPrintException "exception in ba.Actor.__del__() for" self e) w1).
Proof.
  intros He Hi. rewrite (del_run_check_raises cls self w e w1 He). by rewrite Hi.
Qed.

Lemma del_prints_check_exception_witness :
  Actor___del__ FailingActor 11%positive sample_world =
    (Return tt,
     log_call
       (CallPrintException "exception in ba.Actor.__del__() for" 11%positive
          (AttributeError "_activity")) sample_world).
Proof.
  apply (del_prints_check_exception FailingActor 11%positive sample_world
           (AttributeError "_activity") sample_world); reflexivity.
Defined.

(** X4: no instance of [Exception] ever leaves [__del__], for any
    subclass: what the finalizer lets out is outside [Exception]. *)
Theorem del_never_raises_Exception cls self w e :
  fst (Actor___del__ cls self w) = Raise e →
  isinstance_Exception e = false.
Proof.
  unfold Actor___del__, try_except_Exception.
  destruct (bind _ _ w) as [[u|e0|] w1]; simpl; [done| |done].
  destruct (isinstance_Exception e0) eqn:Hi; simpl.
  - done.
  - by intros [= <-].
Qed.

Lemma del_never_raises_Exception_witness :
  fst (Actor___del__ ExitingActor 7%positive sample_world) = Raise SystemExit ∧
  isinstance_Exception SystemExit = false.
Proof.
  split; [reflexivity|].
  exact (del_never_raises_Exception ExitingActor 7%positive sample_world
           SystemExit eq_refl).
Defined.

(** The inherited check on an initialised actor. *)
Lemma is_expired_through cls self r w :
  ov_getactivity cls = None →
  attr__activity (obj_of w self) = Some r →
  Actor_is_expired cls self w = (Return (expired_through w r), w).
Proof.
  intros Hg Hr. rewrite (is_expired_run cls self r w Hg Hr).
  unfold expired_through. destruct (weakref_deref w r) as [a|] eqn:Ha; [|done].
  apply weakref_deref_Some in Ha as [_ [act Hact]]. rewrite Hact.
  by apply Activity_is_expired_run.
Qed.

Lemma expired_through_alive w a act :
  activities w !! a = Some act →
  expired_through w (weakref_ref a) = act_expired act.
Proof.
  intros Ha. unfold expired_through, weakref_deref. rewrite Ha. simpl.
  by rewrite Ha.
Qed.

Lemma expired_through_gone w a :
  activities w !! a = None → expired_through w (weakref_ref a) = true.
Proof. intros Ha. unfold expired_through, weakref_deref. by rewrite Ha. Qed.

Lemma handlemessage_die_returns self w :
  fst (Actor_handlemessage self DieMessage w) = Return PyNone.
Proof.
  unfold Actor_handlemessage. run.
  by destruct (default None (attr_node (obj_of w self))).
Qed.

(** X5: the finalizer of a plain [Actor] always returns: in every world,
    for every instance, initialised or not, it neither raises nor gets
    stuck. *)
Theorem del_base_always_returns self w :
  fst (Actor___del__ Actor self w) = Return tt.
Proof.
  destruct (attr__activity (obj_of w self)) as [r|] eqn:Hr.
  - pose proof (is_expired_through Actor self r w eq_refl Hr) as He.
    destruct (expired_through w r) eqn:Hx.
    + unfold Actor___del__, try_except_Exception, bind.
      change (call_is_expired Actor self w) with (Actor_is_expired Actor self w).
      by rewrite He.
    + rewrite (del_run_live Actor self w w He).
      unfold try_except_Exception, bind.
      change (call_handlemessage Actor self DieMessage w)
        with (Actor_handlemessage self DieMessage w).
      pose proof (handlemessage_die_returns self w) as Hh.
      destruct (Actor_handlemessage self DieMessage w) as [o w2].
      simpl in Hh. by subst o.
  - rewrite (del_run_check_raises Actor self w (AttributeError "_activity") w).
    + done.
    + change (call_is_expired Actor self w) with (Actor_is_expired Actor self w).
      unfold Actor_is_expired, call_getactivity, Actor_getactivity. run.
      by rewrite Hr.
Qed.

(** X6: what the finalizer of a plain, initialised [Actor] does.  When the
    activity is gone, or alive but expired, nothing at all: the node is not
    deleted.  When the activity is alive and not expired, exactly what
    [handlemessage(DieMessage)] does. *)
Theorem del_base_effect self r w :
  attr__activity (obj_of w self) = Some r →
  Actor___del__ Actor self w =
    (Return tt,
     if expired_through w r then w
     else snd (Actor_handlemessage self DieMessage w)).
Proof.
  intros Hr. pose proof (is_expired_through Actor self r w eq_refl Hr) as He.
  destruct (expired_through w r) eqn:Hx.
  - unfold Actor___del__, try_except_Exception, bind.
    change (call_is_expired Actor self w) with (Actor_is_expired Actor self w).
    by rewrite He.
  - rewrite (del_run_live Actor self w w He).
    unfold try_except_Exception, bind.
    change (call_handlemessage Actor self DieMessage w)
      with (Actor_handlemessage self DieMessage w).
    pose proof (handlemessage_die_returns self w) as Hh.
    destruct (Actor_handlemessage self DieMessage w) as [o w2].
    simpl in Hh. by subst o.
Qed.

Lemma del_base_effect_witness :
  Actor___del__ Actor 7%positive sample_world_expired
    = (Return tt, sample_world_expired) ∧
  nodes (snd (Actor___del__ Actor 7%positive sample_world)) = ∅.
Proof.
  split.
  - exact (del_base_effect 7%positive (weakref_ref 1%positive)
             sample_world_expired eq_refl).
  - rewrite (del_base_effect 7%positive (weakref_ref 1%positive)
               sample_world eq_refl).
    vm_compute. reflexivity.
Defined.

(** ** Dying and existing *)

Lemma handlemessage_die_node self n w :
  attr_node (obj_of w self) = Some (Some n) →
  Actor_handlemessage self DieMessage w =
    (Return PyNone,
     log_call (CallNodeDelete n) (set_nodes (λ s, s ∖ {[n]}) w)).
Proof. intros Hn. unfold Actor_handlemessage. run. by rewrite Hn. Qed.

Lemma exists_node self n w :
  attr_node (obj_of w self) = Some (Some n) →
  Actor_exists self w = (Return (bool_decide (n ∈ nodes w)), w).
Proof. intros Hn. unfold Actor_exists. run. by rewrite Hn. Qed.

(** X7: once a node-wrapping actor has handled a [DieMessage] it no longer
    exists: [exists()] and [bool(actor)] are [False], although the ['node']
    attribute still holds the node and the default [is_alive()] still
    answers [True]. *)
Theorem die_then_not_exists self n w :
  attr_node (obj_of w self) = Some (Some n) →
  let w' := snd (Actor_handlemessage self DieMessage w) in
  attr_node (obj_of w' self) = Some (Some n) ∧
  Actor_exists self w' = (Return false, w') ∧
  Actor___bool__ Actor self w' = (Return false, w') ∧
  Actor_is_alive self w' = (Return true, w').
Proof.
  intros Hn w'. subst w'. rewrite (handlemessage_die_node self n w Hn). simpl.
  set (w' := log_call _ _).
  assert (Hn' : attr_node (obj_of w' self) = Some (Some n)) by done.
  assert (He : Actor_exists self w' = (Return false, w')).
  { rewrite (exists_node self n w' Hn'). do 2 f_equal.
    apply bool_decide_eq_false. simpl. rewrite elem_of_difference.
    intros [_ Hnot]. apply Hnot. by apply elem_of_singleton. }
  done.
Qed.

Lemma die_then_not_exists_witness :
  let w' := snd (Actor_handlemessage 7%positive DieMessage sample_world) in
  fst (Actor_exists 7%positive sample_world) = Return true ∧
  Actor_exists 7%positive w' = (Return false, w').
Proof.
  pose proof (die_then_not_exists 7%positive 5%positive sample_world eq_refl)
    as (_ & H & _).
  split; [reflexivity|exact H].
Defined.

(** X8: the finalizer does not look at [exists()].  A plain actor of a live,
    unexpired activity that has already handled a [DieMessage] is sent
    another one when it is finalized, so [node.delete()] is called a second
    time on the same node. *)
Theorem del_after_die_sends_again self a act n w :
  attr__activity (obj_of w self) = Some (weakref_ref a) →
  activities w !! a = Some act →
  act_expired act = false →
  attr_node (obj_of w self) = Some (Some n) →
  let w1 := snd (Actor_handlemessage self DieMessage w) in
  let r := Actor___del__ Actor self w1 in
  fst r = Return tt ∧
  calls (snd r) = calls w ++ [CallNodeDelete n; CallNodeDelete n] ∧
  nodes (snd r) = nodes w ∖ {[n]}.
Proof.
  intros Hr Ha Hx Hn w1 r. subst r w1.
  rewrite (handlemessage_die_node self n w Hn). simpl.
  set (w1 := log_call _ _).
  assert (Hr1 : attr__activity (obj_of w1 self) = Some (weakref_ref a)) by done.
  assert (Hn1 : attr_node (obj_of w1 self) = Some (Some n)) by done.
  pose proof (is_expired_through Actor self _ w1 eq_refl Hr1) as He.
  assert (Hx1 : expired_through w1 (weakref_ref a) = false).
  { by rewrite (expired_through_alive w1 a act Ha). }
  rewrite Hx1 in He. rewrite (del_run_live Actor self w1 w1 He).
  unfold try_except_Exception, bind.
  change (call_handlemessage Actor self DieMessage w1)
    with (Actor_handlemessage self DieMessage w1).
  rewrite (handlemessage_die_node self n w1 Hn1). simpl.
  split; [done|]. split; [by rewrite <- app_assoc|].
  apply set_eq. intros x. rewrite !elem_of_difference. tauto.
Qed.

Lemma del_after_die_sends_again_witness :
  let w1 := snd (Actor_handlemessage 7%positive DieMessage sample_world) in
  calls (snd (Actor___del__ Actor 7%positive w1))
    = [CallNodeDelete 5%positive; CallNodeDelete 5%positive].
Proof.
  pose proof (del_after_die_sends_again 7%positive 1%positive sample_activity
                5%positive sample_world eq_refl eq_refl eq_refl eq_refl)
    as (_ & H & _).
  exact H.
Defined.

(** ** The sanity check *)

(** X9: [_handlemessage_sanity_check], on an initialised actor whose class
    inherits [is_expired] and [getactivity], reports one error exactly when
    the activity is gone or expired, and otherwise leaves the world as it
    was; either way it returns. *)
Theorem sanity_check_spec cls self r w :
  ov_is_expired cls = None →
  ov_getactivity cls = None →
  attr__activity (obj_of w self) = Some r →
  Actor__handlemessage_sanity_check cls self w =
    (Return tt,
     if expired_through w r then
       log_call
         (CallPrintError "handlemessage called on expired actor: " self) w
     else w).
Proof.
  intros Hi Hg Hr. unfold Actor__handlemessage_sanity_check, call_is_expired.
  rewrite Hi. simpl. unfold bind.
  rewrite (is_expired_through cls self r w Hg Hr).
  by destruct (expired_through w r).
Qed.

Lemma sanity_check_spec_witness :
  Actor__handlemessage_sanity_check Actor 7%positive sample_world
    = (Return tt, sample_world) ∧
  calls (snd (Actor__handlemessage_sanity_check Actor 9%positive sample_world))
    = [CallPrintError "handlemessage called on expired actor: " 9%positive] ∧
  calls (snd (Actor__handlemessage_sanity_check Actor 7%positive
                sample_world_expired))
    = [CallPrintError "handlemessage called on expired actor: " 7%positive].
Proof.
  split; [|split].
  - exact (sanity_check_spec Actor 7%positive (weakref_ref 1%positive)
             sample_world eq_refl eq_refl eq_refl).
  - rewrite (sanity_check_spec Actor 9%positive (weakref_ref 2%positive)
               sample_world eq_refl eq_refl eq_refl).
    reflexivity.
  - rewrite (sanity_check_spec Actor 7%positive (weakref_ref 1%positive)
               sample_world_expired eq_refl eq_refl eq_refl).
    reflexivity.
Defined.

(** ** Construction followed by use *)

(** The world of an actor just built in the context of [a], seen from any
    later context. *)
Lemma init_world_facts self node a act c w :
  context_activity w = Some a →
  activities w !! a = Some act →
  let w' := set_context c (snd (Actor___init__ self node w)) in
  obj_of w' self = {| attr_node := Some node;
                      attr__activity := Some (weakref_ref a) |} ∧
  activities w' !! a = Some (registered_with act self) ∧
  nodes w' = nodes w.
Proof.
  intros Hc Ha w'. subst w'. rewrite (init_run self node a act w Hc Ha).
  unfold obj_of. simpl. by rewrite !lookup_insert_eq.
Qed.

(** X10: an actor stays bound to the activity it was created in.  After
    [__init__] in the context of a live activity, and whatever context the
    engine is in later, the [activity] property and [getactivity] return
    the creating activity and [is_expired()] reports that activity's
    flag. *)
Theorem actor_bound_to_creating_activity self node a act c w :
  context_activity w = Some a →
  activities w !! a = Some act →
  let w' := set_context c (snd (Actor___init__ self node w)) in
  Actor_activity self w' = (Return a, w') ∧
  (∀ doraise, Actor_getactivity self doraise w' = (Return (Some a), w')) ∧
  Actor_is_expired Actor self w' = (Return (act_expired act), w').
Proof.
  intros Hc Ha w'.
  destruct (init_world_facts self node a act c w Hc Ha) as (Ho & Hact & _).
  fold w' in Ho, Hact.
  assert (Hr : attr__activity (obj_of w' self) = Some (weakref_ref a))
    by (by rewrite Ho).
  assert (Hd : weakref_deref w' (weakref_ref a) = Some a)
    by (unfold weakref_deref; by rewrite Hact).
  rewrite (activity_run self _ w' Hr), Hd. split; [done|]. split.
  - intros d. rewrite (getactivity_run self _ d w' Hr), Hd. by destruct d.
  - rewrite (is_expired_through Actor self _ w' eq_refl Hr).
    by rewrite (expired_through_alive w' a _ Hact).
Qed.

Lemma actor_bound_to_creating_activity_witness :
  let w' := set_context None
              (snd (Actor___init__ 10%positive None sample_world)) in
  Actor_activity 10%positive w' = (Return 1%positive, w') ∧
  Actor_is_expired Actor 10%positive w' = (Return false, w').
Proof.
  pose proof (actor_bound_to_creating_activity 10%positive None 1%positive
                sample_activity None sample_world eq_refl eq_refl)
    as (H1 & _ & H2).
  exact (conj H1 H2).
Defined.

(** X11: [__init__] stores the node it is given without asking the engine
    about it, so right after construction [exists()] and [bool(actor)]
    answer whether that node exists: an actor built around a node that is
    already gone does not exist, one built without a node does. *)
Theorem init_then_exists self node a act w :
  context_activity w = Some a →
  activities w !! a = Some act →
  let w' := snd (Actor___init__ self node w) in
  let present := match node with
                 | Some n => bool_decide (n ∈ nodes w)
                 | None => true
                 end in
  Actor_exists self w' = (Return present, w') ∧
  Actor___bool__ Actor self w' = (Return present, w').
Proof.
  intros Hc Ha w' present.
  destruct (init_world_facts self node a act (context_activity w) w Hc Ha)
    as (Ho & _ & Hn).
  assert (Hw : set_context (context_activity w)
                 (snd (Actor___init__ self node w)) = w').
  { subst w'. by rewrite (init_run self node a act w Hc Ha). }
  rewrite Hw in Ho, Hn.
  assert (He : Actor_exists self w' = (Return present, w')).
  { unfold Actor_exists. run. rewrite Ho. simpl. subst present.
    destruct node as [n|]; [|done]. unfold Node_exists. by rewrite Hn. }
  done.
Qed.

Lemma init_then_exists_witness :
  fst (Actor_exists 10%positive
         (snd (Actor___init__ 10%positive (Some 6%positive) sample_world)))
    = Return false ∧
  fst (Actor_exists 10%positive
         (snd (Actor___init__ 10%positive (Some 5%positive) sample_world)))
    = Return true.
Proof.
  pose proof (init_then_exists 10%positive (Some 6%positive) 1%positive
                sample_activity sample_world eq_refl eq_refl) as [H6 _].
  pose proof (init_then_exists 10%positive (Some 5%positive) 1%positive
                sample_activity sample_world eq_refl eq_refl) as [H5 _].
  split.
  - rewrite H6. reflexivity.
  - rewrite H5. reflexivity.
Defined.

(** X12: the chained form [Actor(...).autoretain()] always works in the
    context of a live activity: construction followed by [autoretain]
    returns the new actor, which is then both in the weak registry and on
    the retain list of that activity, after one call of each kind. *)
Theorem init_then_autoretain self node a act w :
  context_activity w = Some a →
  activities w !! a = Some act →
  ∃ w2,
    (Actor___init__ self node ;;; Actor_autoretain self) w = (Return self, w2) ∧
    activities w2 !! a = Some (retained_with (registered_with act self) self) ∧
    calls w2 = calls w ++ [CallAddActorWeakRef a self; CallRetainActor a self] ∧
    attr_node (obj_of w2 self) = Some node.
Proof.
  intros Hc Ha.
  destruct (init_world_facts self node a act (context_activity w) w Hc Ha)
    as (Ho & Hact & _).
  unfold bind. rewrite (init_run self node a act w Hc Ha) in *.
  simpl in Ho, Hact. set (w1 := mkWorld _ _ _ _ _) in *.
  assert (Hr : attr__activity (obj_of w1 self) = Some (weakref_ref a)).
  { change (obj_of w1 self)
      with (obj_of (set_context (context_activity w) w1) self).
    by rewrite Ho. }
  rewrite (autoretain_alive self a _ w1 Hr Hact).
  eexists. split; [reflexivity|]. simpl.
  split; [apply lookup_insert_eq|]. split; [by rewrite <- app_assoc|].
  unfold obj_of. simpl. by rewrite lookup_insert_eq.
Qed.

Lemma init_then_autoretain_witness :
  ∃ w2,
    (Actor___init__ 10%positive None ;;; Actor_autoretain 10%positive) sample_world
      = (Return 10%positive, w2) ∧
    activities w2 !! 1%positive
      = Some (retained_with (registered_with sample_activity 10%positive)
                10%positive) ∧
    calls w2 = calls sample_world ++
      [CallAddActorWeakRef 1%positive 10%positive;
       CallRetainActor 1%positive 10%positive] ∧
    attr_node (obj_of w2 10%positive) = Some None.
Proof.
  exact (init_then_autoretain 10%positive None 1%positive sample_activity
           sample_world eq_refl eq_refl).
Defined.

(** ** Retaining is not a lifecycle event *)

(** X13: [autoretain] changes nothing the actor reports about itself.
    After it succeeds the actor's attributes, the nodes and every other
    activity are as before, [exists()], [is_expired()], [getactivity] and
    the [activity] property answer what they answered before, and a second
    [autoretain] succeeds as well. *)
Theorem autoretain_keeps_readers self a act w :
  attr__activity (obj_of w self) = Some (weakref_ref a) →
  activities w !! a = Some act →
  let w' := snd (Actor_autoretain self w) in
  actors w' = actors w ∧
  nodes w' = nodes w ∧
  (∀ b, b ≠ a → activities w' !! b = activities w !! b) ∧
  fst (Actor_exists self w') = fst (Actor_exists self w) ∧
  fst (Actor_is_expired Actor self w') = fst (Actor_is_expired Actor self w) ∧
  (∀ doraise, fst (Actor_getactivity self doraise w')
              = fst (Actor_getactivity self doraise w)) ∧
  fst (Actor_activity self w') = fst (Actor_activity self w) ∧
  fst (Actor_autoretain self w') = Return self.
Proof.
  intros Hr Ha w'. subst w'. rewrite (autoretain_alive self a act w Hr Ha).
  simpl. set (w' := log_call _ _).
  assert (Hr' : attr__activity (obj_of w' self) = Some (weakref_ref a)) by done.
  assert (Ha' : activities w' !! a = Some (retained_with act self))
    by (simpl; apply lookup_insert_eq).
  assert (Hd : weakref_deref w (weakref_ref a) = Some a)
    by (unfold weakref_deref; by rewrite Ha).
  assert (Hd' : weakref_deref w' (weakref_ref a) = Some a)
    by (unfold weakref_deref; by rewrite Ha').
  split; [done|]. split; [done|].
  split; [intros b Hb; simpl; by rewrite lookup_insert_ne|].
  split.
  { unfold Actor_exists. run. change (obj_of w' self) with (obj_of w self).
    by destruct (default None (attr_node (obj_of w self))). }
  split.
  { rewrite (is_expired_through Actor self _ w' eq_refl Hr'),
      (is_expired_through Actor self _ w eq_refl Hr),
      (expired_through_alive w' a _ Ha'), (expired_through_alive w a _ Ha).
    done. }
  split.
  { intros d. rewrite (getactivity_run self _ d w' Hr'),
      (getactivity_run self _ d w Hr), Hd, Hd'. by destruct d. }
  split.
  { by rewrite (activity_run self _ w' Hr'), (activity_run self _ w Hr), Hd, Hd'. }
  by rewrite (autoretain_alive self a _ w' Hr' Ha').
Qed.

Lemma autoretain_keeps_readers_witness :
  let w' := snd (Actor_autoretain 7%positive sample_world) in
  nodes w' = nodes sample_world ∧
  fst (Actor_exists 7%positive w') = Return true ∧
  fst (Actor_is_expired Actor 7%positive w') = Return false ∧
  fst (Actor_autoretain 7%positive w') = Return 7%positive.
Proof.
  pose proof (autoretain_keeps_readers 7%positive 1%positive sample_activity
                sample_world eq_refl eq_refl)
    as (_ & H1 & _ & H2 & H3 & _ & _ & H4).
  exact (conj H1 (conj H2 (conj H3 H4))).
Defined.

(** ** Expiry and the readers *)

(** X14: when the inherited [is_expired()] answers [False], the activity is
    alive and unexpired and every reader succeeds: the [activity] property
    and [getactivity] return it and [autoretain] returns the actor, none of
    them raising. *)
Theorem not_expired_reaches_activity self w :
  fst (Actor_is_expired Actor self w) = Return false →
  ∃ a act,
    attr__activity (obj_of w self) = Some (weakref_ref a) ∧
    activities w !! a = Some act ∧
    act_expired act = false ∧
    Actor_activity self w = (Return a, w) ∧
    (∀ doraise, Actor_getactivity self doraise w = (Return (Some a), w)) ∧
    fst (Actor_autoretain self w) = Return self.
Proof.
  intros He.
  destruct (attr__activity (obj_of w self)) as [[a]|] eqn:Hr.
  - rewrite (is_expired_through Actor self _ w eq_refl Hr) in He.
    simpl in He. injection He as Hx.
    destruct (activities w !! a) as [act|] eqn:Ha.
    + rewrite (expired_through_alive w a act Ha) in Hx.
      exists a, act. split; [done|]. split; [done|]. split; [done|].
      assert (Hd : weakref_deref w (weakref_ref a) = Some a)
        by (unfold weakref_deref; by rewrite Ha).
      rewrite (activity_run self _ w Hr), Hd. split; [done|]. split.
      * intros d. rewrite (getactivity_run self _ d w Hr), Hd. by destruct d.
      * by rewrite (autoretain_alive self a act w Hr Ha).
    + by rewrite (expired_through_gone w a Ha) in Hx.
  - exfalso. revert He.
    unfold Actor_is_expired, call_getactivity, Actor_getactivity. run.
    by rewrite Hr.
Qed.

Lemma not_expired_reaches_activity_witness :
  ∃ a act,
    attr__activity (obj_of sample_world 7%positive) = Some (weakref_ref a) ∧
    activities sample_world !! a = Some act ∧
    act_expired act = false ∧
    Actor_activity 7%positive sample_world = (Return a, sample_world) ∧
    (∀ doraise, Actor_getactivity 7%positive doraise sample_world
                = (Return (Some a), sample_world)) ∧
    fst (Actor_autoretain 7%positive sample_world) = Return 7%positive.
Proof.
  exact (not_expired_reaches_activity 7%positive sample_world eq_refl).
Defined.

(** X15: dying is not expiring.  Handling any message with the default
    [handlemessage], a [DieMessage] included, changes neither the actor's
    attributes nor any activity, so [is_expired()], [getactivity] and the
    [activity] property answer afterwards what they answered before. *)
Theorem handlemessage_keeps_activity self msg w :
  let w' := snd (Actor_handlemessage self msg w) in
  actors w' = actors w ∧
  activities w' = activities w ∧
  fst (Actor_is_expired Actor self w') = fst (Actor_is_expired Actor self w) ∧
  (∀ doraise, fst (Actor_getactivity self doraise w')
              = fst (Actor_getactivity self doraise w)) ∧
  fst (Actor_activity self w') = fst (Actor_activity self w).
Proof.
  intros w'.
  assert (Hacts : actors w' = actors w ∧ activities w' = activities w).
  { subst w'. destruct msg as [|name]; unfold Actor_handlemessage; run;
      [|done].
    by destruct (default None (attr_node (obj_of w self))). }
  destruct Hacts as [Hac Hav]. split; [done|]. split; [done|].
  assert (Ho : obj_of w' self = obj_of w self) by (unfold obj_of; by rewrite Hac).
  assert (Hd : ∀ r, weakref_deref w' r = weakref_deref w r).
  { intros [a]. unfold weakref_deref. by rewrite Hav. }
  assert (Hx : ∀ r, expired_through w' r = expired_through w r).
  { intros r. unfold expired_through. rewrite Hd, Hav. done. }
  destruct (attr__activity (obj_of w self)) as [r|] eqn:Hr.
  - assert (Hr' : attr__activity (obj_of w' self) = Some r) by (by rewrite Ho).
    rewrite !(is_expired_through Actor self r _ eq_refl Hr'),
      !(is_expired_through Actor self r _ eq_refl Hr), Hx.
    split; [done|]. split.
    + intros d. rewrite (getactivity_run self r d w' Hr'),
        (getactivity_run self r d w Hr), Hd.
      by destruct (weakref_deref w r), d.
    + rewrite (activity_run self r w' Hr'), (activity_run self r w Hr), Hd.
      by destruct (weakref_deref w r).
  - assert (Hr' : attr__activity (obj_of w' self) = None) by (by rewrite Ho).
    unfold Actor_is_expired, call_getactivity, Actor_getactivity, Actor_activity.
    run. by rewrite Hr, Hr'.
Qed.

(** X16: what [except Exception] does not match goes through the
    finalizer untouched.  When the [DieMessage] handler raises an object
    outside [Exception], [__del__] raises that same object in the world the
    handler left: nothing is printed and nothing else is done. *)
Theorem del_passes_non_Exception cls self w w1 e w2 :
  call_is_expired cls self w = (Return false, w1) →
  call_handlemessage cls self DieMessage w1 = (Raise e, w2) →
  isinstance_Exception e = false →
  Actor___del__ cls self w = (Raise e, w2).
Proof.
  intros He Hh Hi. rewrite (del_run_live cls self w w1 He).
  unfold try_except_Exception, bind. by rewrite Hh, Hi.
Qed.

Lemma del_passes_non_Exception_witness :
  Actor___del__ ExitingActor 8%positive sample_world
    = (Raise SystemExit, sample_world).
Proof.
  exact (del_passes_non_Exception ExitingActor 8%positive sample_world
           sample_world SystemExit sample_world eq_refl eq_refl eq_refl).
Defined.
